(** * The JIT flatbuffer serializer glue
      (torch/csrc/jit/serialization/flatbuffer_serializer_jit.cpp)

    The file is glue: it strings together the flatbuffer loader, the
    mobile serializer, the source importer and exporter and the upgrader
    registry.  The embedding keeps that shape.  Everything the file calls
    but does not define is a field of the [Collaborators] interface; the
    functions the file defines are translated line by line over that
    interface.  Two helpers whose behaviour the properties depend on
    ([parseExtraFiles], [Module::set_delete_memory]) and the upgrader stage
    are modelled from the specification and marked as such. *)

From Stdlib Require Import Strings.Byte.
From stdpp Require Import base option list strings gmap fin_maps.

(** ** Errors and results *)

(** The error taxonomy of the specification; C++ exceptions are modelled
    as the [Throw] alternative of [result]. *)
Inductive error : Type :=
  | IOError
  | FormatError
  | UnsupportedVersionError
  | UpgradeError.

Inductive result (A : Type) : Type :=
  | Ok (a : A)
  | Throw (e : error).
Arguments Ok {A} a.
Arguments Throw {A} e.

Definition is_ok {A} (r : result A) : bool :=
  match r with Ok _ => true | Throw _ => false end.

(** ** Data model *)

#[global] Instance byte_eq_dec : EqDecision byte.
Proof.
  intros x y. destruct (Byte.eqb x y) eqn:E.
  - left. by apply Byte.byte_dec_bl.
  - right. intros ->. by rewrite Byte.byte_dec_lb in E.
Defined.

(** [ExtraFilesMap] is [std::unordered_map<std::string, std::string>]. *)
Abbreviation ExtraFilesMap := (gmap string string).

(** [at::Device]; the loader accepts it and never looks at it. *)
Inductive Device : Type :=
  | CPU
  | CUDA (index : nat).

(** [std::shared_ptr<char>]: the control block it shares ([sp_ctrl]) and
    the bytes that can be read through [get()] ([sp_get]).  The bytes are
    what the memory behind the pointer holds; the pointer itself carries no
    length. *)
Record shared_ptr : Type := SharedPtr {
  sp_ctrl : nat;
  sp_get : list byte
}.

(** [torch::jit::Module]: the object it wraps and the memory it keeps alive
    ([mem_to_delete_]). *)
Record Module (Object : Type) : Type := MkModule {
  _ivalue : Object;
  mem_to_delete_ : option shared_ptr
}.
Arguments MkModule {Object} _ _.
Arguments _ivalue {Object} _.
Arguments mem_to_delete_ {Object} _.

(** The two function pointers this file can store in the hooks. *)
Inductive fnptr : Type :=
  | fn_save_jit_module_to_write_func
  | fn_parse_and_initialize_jit_module.

(** What a call of [register_flatbuffer_all] does to the process, in
    program order. *)
Inductive Effect : Type :=
  | Call_register_flatbuffer_loader
  | Call_register_flatbuffer_serializer
  | Store_save_jit_module_to (f : fnptr)
  | Store_load_jit_module_from_flatbuffer_bytes (f : fnptr).

(** ** The collaborators

    Everything declared in the headers the file includes.  [Globals] is the
    process-wide state those collaborators own (the upgrader graph map, the
    global compilation options, the mobile loader and serializer hooks).
    Of the calls a load makes, [parseModule] and
    [jitModuleFromSourceAndConstants] are the ones modelled as able to
    throw; the others are taken to return. *)
Class Collaborators : Type := {
  Object : Type;
  IValue : Type;
  mobile_Module : Type;
  FlatbufferModule : Type;
  FlatbufferLoader : Type;
  CompilationOptions : Type;
  Globals : Type;
  (* configuration *)
  ENABLE_UPGRADERS : bool;
  __APPLE__ : bool;
  (* behavioural equivalence of module objects *)
  behaves_like : Object → Object → Prop;
  (* mobile/flatbuffer_loader.h *)
  GetMutableModule : list byte → FlatbufferModule;
  bytecode_version : FlatbufferModule → N;
  extra_files_table : FlatbufferModule → list (string * string);
  FlatbufferLoader_new : FlatbufferLoader;
  parseModule :
    FlatbufferLoader → FlatbufferModule →
    result (mobile_Module * FlatbufferLoader);
  extractJitSourceAndConstants :
    FlatbufferLoader → ExtraFilesMap → list IValue →
    ExtraFilesMap * list IValue;
  mobile_ivalue : mobile_Module → Object;
  register_flatbuffer_loader : Globals → bool * Globals;
  (* operator_upgraders/upgraders_entry.h *)
  populate_upgraders_graph_map : Globals → Globals;
  (* serialization/import.h *)
  jitModuleFromSourceAndConstants :
    Globals → Object → ExtraFilesMap → list IValue → N → result Object;
  (* serialization/export.h, export_bytecode.h *)
  jitModuleToPythonCodeAndConstants :
    Module Object → ExtraFilesMap → list IValue →
    ExtraFilesMap * list IValue;
  getOptionsFromGlobal : Globals → CompilationOptions;
  jitModuleToMobile : Module Object → CompilationOptions → mobile_Module;
  (* serialization/flatbuffer_serializer.h *)
  save_mobile_module_to_bytes :
    mobile_Module → ExtraFilesMap → ExtraFilesMap → list IValue → list byte;
  register_flatbuffer_serializer : Globals → bool * Globals
}.

(** ** The process *)

Record World `{Collaborators} : Type := MkWorld {
  globals : Globals;
  _save_jit_module_to : option fnptr;
  _load_jit_module_from_flatbuffer_bytes : option fnptr;
  kFlatbufferSerializerJitInitialized : option bool;
  use_count : gmap nat nat;
  effects : list Effect
}.

Section Glue.
Context `{Collab : Collaborators}.

Definition with_globals (g : Globals) (w : World) : World :=
  MkWorld _ g (_save_jit_module_to w) (_load_jit_module_from_flatbuffer_bytes w)
    (kFlatbufferSerializerJitInitialized w) (use_count w) (effects w).

Definition with_use_count (u : gmap nat nat) (w : World) : World :=
  MkWorld _ (globals w) (_save_jit_module_to w)
    (_load_jit_module_from_flatbuffer_bytes w)
    (kFlatbufferSerializerJitInitialized w) u (effects w).

(** *** Shared ownership *)

(** Copying a [shared_ptr] adds a holder. *)
Definition sp_copy (p : shared_ptr) (w : World) : World :=
  with_use_count (alter S (sp_ctrl p) (use_count w)) w.

(** Destroying a [shared_ptr] removes a holder; the last one frees the
    block. *)
Definition sp_release (p : shared_ptr) (w : World) : World :=
  match use_count w !! sp_ctrl p with
  | Some (S (S n)) => with_use_count (<[sp_ctrl p := S n]> (use_count w)) w
  | Some _ => with_use_count (delete (sp_ctrl p) (use_count w)) w
  | None => w
  end.

Definition alive (p : shared_ptr) (w : World) : Prop :=
  is_Some (use_count w !! sp_ctrl p).

(** Modelled from the spec: [Module::set_delete_memory] is declared in a
    header that is not part of the sources.  Section 4.1 asks for a handle
    that "can be attached to an arbitrary downstream object so that
    releasing all other references to the buffer is deferred until that
    object is also released": the module stores a copy of the pointer,
    dropping the one it held before. *)
Definition set_delete_memory (m : Module Object) (delete_mem : shared_ptr)
    (w : World) : Module Object * World :=
  let w1 := sp_copy delete_mem w in
  let w2 := match mem_to_delete_ m with
            | Some old => sp_release old w1
            | None => w1
            end in
  (MkModule (_ivalue m) (Some delete_mem), w2).

(** Destroying a module releases the memory attached to it. *)
Definition destroy_module (m : Module Object) (w : World) : World :=
  match mem_to_delete_ m with
  | Some p => sp_release p w
  | None => w
  end.

(** *** Extra files *)

(** Modelled from the spec: [parseExtraFiles] is defined in the flatbuffer
    loader, which is not part of the sources.  Section 4.2: "existing keys
    are left untouched ...; new keys added"; section 9: "insert-if-absent".
    The entries of the artifact's extra-files table are visited in table
    order. *)
Definition insert_if_absent (kv : string * string) (m : ExtraFilesMap)
    : ExtraFilesMap :=
  match m !! kv.1 with
  | Some _ => m
  | None => <[kv.1 := kv.2]> m
  end.

Definition parseExtraFiles (module : FlatbufferModule)
    (extra_files : ExtraFilesMap) : ExtraFilesMap :=
  foldl (λ m kv, insert_if_absent kv m) extra_files (extra_files_table module).

(** *** Load *)

(** The outcome of a load: what the call returns or throws, the caller's
    [extra_files] map as the call leaves it (it is passed by reference, so
    what was written before a throw stays written), and the process. *)
Definition parse_and_initialize_jit_module
    (data : shared_ptr) (size : nat) (extra_files : ExtraFilesMap)
    (device : option Device) (w : World)
    : result (Module Object) * ExtraFilesMap * World :=
  let w :=
    if ENABLE_UPGRADERS
    then with_globals (populate_upgraders_graph_map (globals w)) w
    else w in
  let flatbuffer_module := GetMutableModule (sp_get data) in
  let loader := FlatbufferLoader_new in
  match parseModule loader flatbuffer_module with
  | Throw e => (Throw e, extra_files, sp_release data w)
  | Ok (mobilem, loader) =>
    let extra_files := parseExtraFiles flatbuffer_module extra_files in
    let files : ExtraFilesMap := ∅ in
    let constants : list IValue := [] in
    let '(files, constants) :=
      extractJitSourceAndConstants loader files constants in
    match jitModuleFromSourceAndConstants (globals w)
            (mobile_ivalue mobilem) files constants
            (bytecode_version flatbuffer_module) with
    | Throw e => (Throw e, extra_files, sp_release data w)
    | Ok o =>
      let m := MkModule o None in
      let '(m, w) := set_delete_memory m data w in
      (Ok m, extra_files, sp_release data w)
    end
  end.

(** *** Save *)

Definition save_jit_module_to_bytes
    (module : Module Object) (extra_files : ExtraFilesMap) (w : World)
    : list byte :=
  let jitfiles : ExtraFilesMap := ∅ in
  let constants : list IValue := [] in
  let '(jitfiles, constants) :=
    jitModuleToPythonCodeAndConstants module jitfiles constants in
  let options := getOptionsFromGlobal (globals w) in
  let mobilem := jitModuleToMobile module options in
  save_mobile_module_to_bytes mobilem extra_files jitfiles constants.

(** [writer_func] is a [std::function<size_t(const void*, size_t)>]: it is
    given the bytes behind the pointer and the length, and acts on whatever
    state it captured ([Sink]). *)
Definition save_jit_module_to_write_func {Sink : Type}
    (module : Module Object) (extra_files : ExtraFilesMap)
    (save_mobile_debug_info : bool)
    (writer_func : list byte → nat → Sink → nat * Sink)
    (w : World) (sink : Sink) : Sink :=
  let buffer := save_jit_module_to_bytes module extra_files w in
  (writer_func buffer (length buffer) sink).2.

(** *** Registration *)

Definition log (e : Effect) (w : World) : World :=
  MkWorld _ (globals w) (_save_jit_module_to w)
    (_load_jit_module_from_flatbuffer_bytes w)
    (kFlatbufferSerializerJitInitialized w) (use_count w) (effects w ++ [e]).

Definition store_save_jit_module_to (f : fnptr) (w : World) : World :=
  log (Store_save_jit_module_to f)
    (MkWorld _ (globals w) (Some f) (_load_jit_module_from_flatbuffer_bytes w)
       (kFlatbufferSerializerJitInitialized w) (use_count w) (effects w)).

Definition store_load_jit_module_from_flatbuffer_bytes (f : fnptr) (w : World)
    : World :=
  log (Store_load_jit_module_from_flatbuffer_bytes f)
    (MkWorld _ (globals w) (_save_jit_module_to w) (Some f)
       (kFlatbufferSerializerJitInitialized w) (use_count w) (effects w)).

Definition register_flatbuffer_all (w : World) : bool * World :=
  let w := log Call_register_flatbuffer_loader
             (with_globals (register_flatbuffer_loader (globals w)).2 w) in
  let w := log Call_register_flatbuffer_serializer
             (with_globals (register_flatbuffer_serializer (globals w)).2 w) in
  let w := store_save_jit_module_to fn_save_jit_module_to_write_func w in
  let w := store_load_jit_module_from_flatbuffer_bytes
             fn_parse_and_initialize_jit_module w in
  (true, w).

(** The initializer of [kFlatbufferSerializerJitInitialized], run once when
    the library is loaded, unless [__APPLE__] is defined. *)
Definition static_initialization (w : World) : World :=
  if __APPLE__ then w
  else
    let '(b, w) := register_flatbuffer_all w in
    MkWorld _ (globals w) (_save_jit_module_to w)
      (_load_jit_module_from_flatbuffer_bytes w) (Some b) (use_count w)
      (effects w).

End Glue.

(** ** A small set of collaborators

    Modelled from the spec: the flatbuffer codec, the lowering pass and the
    source importer and exporter are not part of the sources.  [Toy] is a
    small stand-in that follows section 3 ("a fixed header (magic/identifier,
    schema version integer, table offsets)") and section 4.2 ("validate the
    magic header; fail with FormatError if absent or malformed", "too-new
    schema version -> UnsupportedVersionError").  It is used to run the glue
    on concrete inputs; the general theorems quantify over every
    [Collaborators]. *)
Module Toy.

Record globals_t : Type := MkGlobals {
  model_version : nat;
  upgraders_populated : bool;
  loader_registered : bool;
  serializer_registered : bool
}.

Record mobile_t : Type := MkMobile {
  mm_object : nat;
  mm_version : nat
}.

Definition byte_of_nat (n : nat) : byte := default x00 (Byte.of_nat n).

Definition magic : list byte := String.list_byte_of_string "PTMF".

(** The highest schema version the toy runtime reads. *)
Definition max_version : nat := 9.

Definition enc_str (s : string) : list byte :=
  byte_of_nat (String.length s) :: String.list_byte_of_string s.

Definition enc_entries (l : list (string * string)) : list byte :=
  byte_of_nat (length l) :: flat_map (λ kv, enc_str kv.1 ++ enc_str kv.2) l.

Definition enc_constants (c : list nat) : list byte :=
  byte_of_nat (length c) :: map byte_of_nat c.

(** Header: magic (4 bytes), schema version (1 byte), then the table of
    contents at offset 5: the absolute offsets of the object region, the
    extra-files table, the source bundle and the constant pool. *)
Definition toc_offset : nat := 5.

Definition encode (mm : mobile_t) (extra jit : ExtraFilesMap)
    (constants : list nat) : list byte :=
  let r_obj := [byte_of_nat (mm_object mm)] in
  let r_extra := enc_entries (map_to_list extra) in
  let r_jit := enc_entries (map_to_list jit) in
  let r_const := enc_constants constants in
  let o_obj := 9 in
  let o_extra := o_obj + length r_obj in
  let o_jit := o_extra + length r_extra in
  let o_const := o_jit + length r_jit in
  magic ++ [byte_of_nat (mm_version mm)]
    ++ map byte_of_nat [o_obj; o_extra; o_jit; o_const]
    ++ r_obj ++ r_extra ++ r_jit ++ r_const.

Definition dec_str (bs : list byte) : option (string * list byte) :=
  match bs with
  | [] => None
  | n :: r =>
    let n := Byte.to_nat n in
    if decide (n ≤ length r)
    then Some (String.string_of_list_byte (take n r), drop n r)
    else None
  end.

Fixpoint dec_entries_n (n : nat) (bs : list byte)
    : option (list (string * string)) :=
  match n with
  | 0 => Some []
  | S n =>
    '(k, bs) ← dec_str bs;
    '(v, bs) ← dec_str bs;
    l ← dec_entries_n n bs;
    Some ((k, v) :: l)
  end.

Definition dec_entries (bs : list byte) : option (list (string * string)) :=
  match bs with
  | [] => None
  | n :: r => dec_entries_n (Byte.to_nat n) r
  end.

Definition dec_constants (bs : list byte) : option (list nat) :=
  match bs with
  | [] => None
  | n :: r =>
    let n := Byte.to_nat n in
    if decide (n ≤ length r) then Some (map Byte.to_nat (take n r)) else None
  end.

Definition region (i : nat) (fb : list byte) : list byte :=
  match fb !! (toc_offset + i) with
  | Some o => drop (Byte.to_nat o) fb
  | None => []
  end.

Definition version_of (fb : list byte) : nat :=
  match fb !! 4 with Some v => Byte.to_nat v | None => 0 end.

Definition parse (fb : list byte) : result (mobile_t * option (list byte)) :=
  if decide (take 4 fb = magic) then
    if decide (max_version < version_of fb) then Throw UnsupportedVersionError
    else
      match region 0 fb, dec_entries (region 1 fb), dec_entries (region 2 fb),
            dec_constants (region 3 fb) with
      | o :: _, Some _, Some _, Some _ =>
        Ok (MkMobile (Byte.to_nat o) (version_of fb), Some fb)
      | _, _, _, _ => Throw FormatError
      end
  else Throw FormatError.

Definition extract (loader : option (list byte)) (files : ExtraFilesMap)
    (constants : list nat) : ExtraFilesMap * list nat :=
  match loader with
  | Some fb =>
    (foldl (λ m kv, <[kv.1 := kv.2]> m) files
       (default [] (dec_entries (region 2 fb))),
     constants ++ default [] (dec_constants (region 3 fb)))
  | None => (files, constants)
  end.

Definition source_key : string := "code/__torch__.py".

Definition import (g : globals_t) (o : nat) (files : ExtraFilesMap)
    (constants : list nat) (version : N) : result nat :=
  match files !! source_key with
  | Some _ => Ok o
  | None => Throw FormatError
  end.

Definition export (m : Module nat) (files : ExtraFilesMap)
    (constants : list nat) : ExtraFilesMap * list nat :=
  (<[source_key := "return CONSTANTS.c0"]> files,
   constants ++ [_ivalue m]).

#[global] Instance collaborators : Collaborators := {|
  Object := nat;
  IValue := nat;
  mobile_Module := mobile_t;
  FlatbufferModule := list byte;
  FlatbufferLoader := option (list byte);
  CompilationOptions := nat;
  Globals := globals_t;
  ENABLE_UPGRADERS := true;
  __APPLE__ := false;
  behaves_like := eq;
  GetMutableModule := id;
  bytecode_version := λ fb, N.of_nat (version_of fb);
  extra_files_table := λ fb, default [] (dec_entries (region 1 fb));
  FlatbufferLoader_new := None;
  parseModule := λ _ fb, parse fb;
  extractJitSourceAndConstants := extract;
  mobile_ivalue := mm_object;
  register_flatbuffer_loader := λ g,
    (true, MkGlobals (model_version g) (upgraders_populated g) true
             (serializer_registered g));
  populate_upgraders_graph_map := λ g,
    MkGlobals (model_version g) true (loader_registered g)
      (serializer_registered g);
  jitModuleFromSourceAndConstants := import;
  jitModuleToPythonCodeAndConstants := export;
  getOptionsFromGlobal := model_version;
  jitModuleToMobile := λ m options, MkMobile (_ivalue m) options;
  save_mobile_module_to_bytes := encode;
  register_flatbuffer_serializer := λ g,
    (true, MkGlobals (model_version g) (upgraders_populated g)
             (loader_registered g) true)
|}.

Definition world0 (version : nat) : World :=
  MkWorld _ (MkGlobals version false false false) None None None ∅ [].

(** A module, and the extra file of the scenario in section 8. *)
Definition module0 : Module nat := MkModule 1 None.
Definition extra0 : ExtraFilesMap := {["README" := "hi"]}.

Definition artifact0 : list byte :=
  save_jit_module_to_bytes module0 extra0 (world0 7).

(** The artifact of the merge example in section 8, and the caller's map. *)
Definition meta : ExtraFilesMap := {["meta.txt" := "v1"]}.
Definition other : ExtraFilesMap := {["other.txt" := "x"]}.
Definition artifact_meta : list byte :=
  save_jit_module_to_bytes module0 meta (world0 7).

Definition data0 : shared_ptr := SharedPtr 0 artifact0.

Definition data_meta : shared_ptr := SharedPtr 0 artifact_meta.

(** The first three bytes of [artifact0] and nothing behind them. *)
Definition data_cut : shared_ptr := SharedPtr 0 (take 3 artifact0).

(** A loading process in which the caller holds the only reference to
    control block 0, and one in which somebody else holds two more. *)
Definition loading : World := with_use_count {[0 := 1]} (world0 7).
Definition loading_shared : World := with_use_count {[0 := 3]} (world0 7).

End Toy.

(** ** What the collaborators owe the glue

    The round trip needs the collaborators to do their part.  The two
    predicates state it for one artifact, in the words of sections 3 and
    4: the Deserializer reads back what the Serializer wrote, and the
    Format Adapter rebuilds the module from what it extracted. *)

Section Contracts.
Context `{Collab : Collaborators}.

(** The globals a load runs its collaborators in. *)
Definition load_globals (w : World) : Globals :=
  if ENABLE_UPGRADERS then populate_upgraders_graph_map (globals w)
  else globals w.

(** Serializer and Deserializer agree on the artifact made of [mobilem],
    the extra files [F], the source bundle [J] and the constant pool [C]:
    the artifact parses, its object behaves like the one written, its
    extra-files table lists [F], and the loader hands back [J] and [C]. *)
Definition codec_faithful_at (mobilem : mobile_Module) (F J : ExtraFilesMap)
    (C : list IValue) : Prop :=
  let module :=
    GetMutableModule (save_mobile_module_to_bytes mobilem F J C) in
  ∃ mobilem' loader,
    parseModule FlatbufferLoader_new module = Ok (mobilem', loader)
    ∧ behaves_like (mobile_ivalue mobilem') (mobile_ivalue mobilem)
    ∧ extra_files_table module ≡ₚ map_to_list F
    ∧ extractJitSourceAndConstants loader ∅ [] = (J, C).

(** The Format Adapter's two directions agree on [module]: from the source
    bundle and constants extracted from it, and any object that behaves
    like its lowered form, it rebuilds a module that behaves like
    [module]. *)
Definition adapter_faithful_at (g : Globals) (module : Module Object)
    (options : CompilationOptions) (version : N) : Prop :=
  let '(J, C) := jitModuleToPythonCodeAndConstants module ∅ [] in
  ∀ o, behaves_like o (mobile_ivalue (jitModuleToMobile module options)) →
    ∃ o', jitModuleFromSourceAndConstants g o J C version = Ok o'
          ∧ behaves_like o' (_ivalue module).


(** [n] calls of [register_flatbuffer_all], one after the other. *)
Definition register_times (n : nat) (w : World) : World :=
  Nat.iter n (λ w, (register_flatbuffer_all w).2) w.

(** What one call of [register_flatbuffer_all] does, in order. *)
Definition one_registration : list Effect :=
  [ Call_register_flatbuffer_loader;
    Call_register_flatbuffer_serializer;
    Store_save_jit_module_to fn_save_jit_module_to_write_func;
    Store_load_jit_module_from_flatbuffer_bytes
      fn_parse_and_initialize_jit_module ].

End Contracts.

(** A writer that only records how it was called. *)
Definition recording_writer (ptr : list byte) (len : nat)
    (calls : list (list byte * nat)) : nat * list (list byte * nat) :=
  (len, calls ++ [(ptr, len)]).

(** ** The upgrader stage

    Modelled from the spec: the Upgrader Applier runs inside the loader and
    the source importer, which are not part of the sources; the file only
    populates its registry and passes the declared version on.  Section
    4.3: "upgraders form a registry keyed by (operator name, version
    range); applied in a single pass over the instruction stream in
    declaration order"; "a conditional no-op when declared version equals
    current version"; after the stage the module carries "no stale version
    marker".  Section 7: an upgrader that fails to rewrite an instruction
    aborts the load with UpgradeError. *)
Module Upgrader.

Record Instruction : Type := MkInstruction {
  operator : string;
  operands : list N
}.

Record Entry : Type := MkEntry {
  operator_name : string;
  min_version : N;
  max_version : N;
  rewrite_call : Instruction → option Instruction
}.

Record PortableModule : Type := MkPortable {
  declared_version : N;
  instructions : list Instruction
}.

Definition applies (declared : N) (i : Instruction) (u : Entry) : bool :=
  bool_decide (operator_name u = operator i)
  && (min_version u <=? declared)%N && (declared <=? max_version u)%N.

Definition upgrade_instruction (registry : list Entry) (declared : N)
    (i : Instruction) : result Instruction :=
  match find (applies declared i) registry with
  | None => Ok i
  | Some u =>
    match rewrite_call u i with
    | Some i' => Ok i'
    | None => Throw UpgradeError
    end
  end.

Fixpoint upgrade_stream (registry : list Entry) (declared : N)
    (stream : list Instruction) : result (list Instruction) :=
  match stream with
  | [] => Ok []
  | i :: rest =>
    match upgrade_instruction registry declared i with
    | Throw e => Throw e
    | Ok i' =>
      match upgrade_stream registry declared rest with
      | Throw e => Throw e
      | Ok rest' => Ok (i' :: rest')
      end
    end
  end.

Definition apply_upgraders (registry : list Entry) (current : N)
    (pm : PortableModule) : result PortableModule :=
  if decide (declared_version pm = current) then Ok pm
  else
    match upgrade_stream registry (declared_version pm) (instructions pm) with
    | Throw e => Throw e
    | Ok stream => Ok (MkPortable current stream)
    end.

(** The stage run twice in a row. *)
Definition apply_upgraders_twice (registry : list Entry) (current : N)
    (pm : PortableModule) : result PortableModule :=
  match apply_upgraders registry current pm with
  | Throw e => Throw e
  | Ok pm' => apply_upgraders registry current pm'
  end.

(** A registry with one upgrader, for [aten::div] as written by versions 0
    to 3, and two modules. *)
Definition registry0 : list Entry :=
  [ MkEntry "aten::div" 0 3
      (λ i, Some (MkInstruction "div_Tensor_0_3" (operands i))) ].

Definition stream0 : list Instruction :=
  [ MkInstruction "aten::add" [0; 1]%N; MkInstruction "aten::div" [2; 3]%N ].

Definition current_module : PortableModule := MkPortable 4 stream0.
Definition old_module : PortableModule := MkPortable 3 stream0.

End Upgrader.

(** ** Files and streams

    The three entry points that read or write outside the process.  What
    they need from outside the file is gathered in [Environment]:
    [get_file_content] and [get_stream_content] (mobile/file_format.h),
    which hand back a new buffer and its size or throw, and whether the
    operating system lets a path be opened for writing. *)

Abbreviation Files := (gmap string (list byte)).

Class Environment : Type := {
  istream : Type;
  get_file_content : string → Files → result (list byte * nat);
  get_stream_content : istream → result (list byte * nat) * istream;
  can_open : string → Files → bool
}.

Section FileGlue.
Context `{Collab : Collaborators} `{Env : Environment}.

(** The [shared_ptr] a reader returns: a new control block, one holder. *)
Definition make_shared (bytes : list byte) (w : World) : shared_ptr * World :=
  let ctrl := fresh (dom (use_count w)) in
  (SharedPtr ctrl bytes, with_use_count (<[ctrl := 1]> (use_count w)) w).

(** [std::move(std::get<0>(data))] gives the tuple's share to the argument
    of [parse_and_initialize_jit_module]; the emptied tuple has nothing to
    release. *)
Definition load_jit_module_from_file
    (filename : string) (extra_files : ExtraFilesMap)
    (device : option Device) (fs : Files) (w : World)
    : result (Module Object) * ExtraFilesMap * World :=
  match get_file_content filename fs with
  | Throw e => (Throw e, extra_files, w)
  | Ok (bytes, size) =>
    let '(data, w) := make_shared bytes w in
    parse_and_initialize_jit_module data size extra_files device w
  end.

(** The stream is passed by reference: what the reader consumed stays
    consumed. *)
Definition load_jit_module_from_stream
    (in_ : istream) (extra_files : ExtraFilesMap)
    (device : option Device) (w : World)
    : result (Module Object) * ExtraFilesMap * World * istream :=
  match get_stream_content in_ with
  | (Throw e, in_) => (Throw e, extra_files, w, in_)
  | (Ok (bytes, size), in_) =>
    let '(data, w) := make_shared bytes w in
    (parse_and_initialize_jit_module data size extra_files device w, in_)
  end.

(** [std::fstream ofile(filename, std::ios::binary | std::ios::out)]:
    opening for output creates the file or empties it.  When the file
    cannot be opened the stream is left in a failed state; nothing is
    thrown. *)
Definition fstream_open (filename : string) (fs : Files) : option Files :=
  if can_open filename fs then Some (<[filename := []]> fs) else None.

(** [ofile.write(p, n)] on an open stream puts the bytes after what the
    file holds.  The write is taken to reach the file. *)
Definition fstream_write (filename : string) (bytes : list byte) (fs : Files)
    : Files :=
  alter (λ content, content ++ bytes) filename fs.

(** The function returns [void] and never looks at the state of [ofile]:
    on a failed stream [write] and [close] do nothing. *)
Definition save_jit_module
    (module : Module Object) (filename : string)
    (extra_files : ExtraFilesMap) (w : World) (fs : Files) : Files :=
  let buffer := save_jit_module_to_bytes module extra_files w in
  match fstream_open filename fs with
  | Some fs => fstream_write filename buffer fs
  | None => fs
  end.

(** The reader gives back what the file at [filename] holds. *)
Definition reads_file_at (filename : string) (fs : Files) : Prop :=
  ∃ content size,
    fs !! filename = Some content
    ∧ get_file_content filename fs = Ok (content, size).

(** Two processes that differ in their use counts at most. *)
Definition same_but_use_count (w1 w2 : World) : Prop :=
  globals w1 = globals w2
  ∧ _save_jit_module_to w1 = _save_jit_module_to w2
  ∧ _load_jit_module_from_flatbuffer_bytes w1
    = _load_jit_module_from_flatbuffer_bytes w2
  ∧ kFlatbufferSerializerJitInitialized w1
    = kFlatbufferSerializerJitInitialized w2
  ∧ effects w1 = effects w2.

End FileGlue.

(** Modelled from the spec: a reader and a disk for the toy collaborators.
    A file that is not there is an IOError (section 4.1); a stream is the
    bytes still to be read; the empty path cannot be opened. *)
Module ToyFiles.

#[global] Instance environment : Environment := {|
  istream := list byte;
  get_file_content := λ filename fs,
    match fs !! filename with
    | Some content => Ok (content, length content)
    | None => Throw IOError
    end;
  get_stream_content := λ in_, (Ok (in_, length in_), []);
  can_open := λ filename _, bool_decide (filename ≠ "")
|}.

(** An artifact whose source bundle is empty: it parses, and the importer
    rejects it. *)
Definition artifact_no_source : list byte :=
  Toy.encode (Toy.MkMobile 1 7) Toy.meta ∅ [1].
Definition data_no_source : shared_ptr := SharedPtr 0 artifact_no_source.

(** A disk with one file on it, which is not an artifact. *)
Definition disk0 : Files :=
  {["notes.txt" := String.list_byte_of_string "abc"]}.

End ToyFiles.

(** ** Saving, with the collaborators as calls

    [save_jit_module_to_bytes] above takes its collaborators as functions
    of their arguments.  Whether the save is pure is a question about
    exactly what that leaves out, so here the same lines are translated
    once more with nothing assumed of the three calls: each may read the
    collaborators' globals, write them, and throw.  An
    [std::unordered_map] is passed as the sequence it iterates in, which is
    what a serializer that walks it sees. *)

Abbreviation unordered_map := (list (string * string)).

Class SaveCalls `{Collaborators} : Type := {
  call_jitModuleToPythonCodeAndConstants :
    Module Object → unordered_map → list IValue →
    Globals → result (unordered_map * list IValue) * Globals;
  call_jitModuleToMobile :
    Module Object → CompilationOptions →
    Globals → result mobile_Module * Globals;
  call_save_mobile_module_to_bytes :
    mobile_Module → unordered_map → unordered_map → list IValue →
    Globals → result (list byte) * Globals
}.

Section InProcess.
Context `{Collab : Collaborators}.

(** A computation in the process: it returns or throws, and leaves a
    process behind either way. *)
Definition Proc (A : Type) : Type := World → result A * World.

Definition proc_bind {A B} (m : Proc A) (k : A → Proc B) : Proc B :=
  λ w,
    match m w with
    | (Ok a, w) => k a w
    | (Throw e, w) => (Throw e, w)
    end.

(** A read of the collaborators' globals. *)
Definition read_globals {A} (f : Globals → A) : Proc A :=
  λ w, (Ok (f (globals w)), w).

(** A call of a collaborator: it sees and may change the globals only. *)
Definition call {A} (m : Globals → result A * Globals) : Proc A :=
  λ w, let '(r, g) := m (globals w) in (r, with_globals g w).

(** The call neither reads nor writes the globals. *)
Definition pure_call {A} (m : Globals → result A * Globals) : Prop :=
  ∀ g g', (m g).1 = (m g').1 ∧ (m g).2 = g.

End InProcess.

Notation "'let!' x ':=' m 'in' k" := (proc_bind m (λ x, k))
  (at level 10, x pattern, m at level 100, k at level 200).

Section SaveInProcess.
Context `{Collab : Collaborators} `{Calls : !SaveCalls}.

Definition save_jit_module_to_bytes_in_process
    (module : Module Object) (extra_files : unordered_map)
    : Proc (list byte) :=
  let jitfiles : unordered_map := [] in
  let constants : list IValue := [] in
  let! (jitfiles, constants) :=
    call (call_jitModuleToPythonCodeAndConstants module jitfiles constants) in
  let! options := read_globals getOptionsFromGlobal in
  let! mobilem := call (call_jitModuleToMobile module options) in
  call (call_save_mobile_module_to_bytes mobilem extra_files jitfiles
          constants).

(** The three calls of a save of [module] and [extra_files] in a process
    with globals [g] are pure, each at the arguments the save gives it. *)
Definition calls_pure_at (module : Module Object)
    (extra_files : unordered_map) (g : Globals) : Prop :=
  pure_call (call_jitModuleToPythonCodeAndConstants module [] [])
  ∧ pure_call (call_jitModuleToMobile module (getOptionsFromGlobal g))
  ∧ (∀ jitfiles constants mobilem,
       (call_jitModuleToPythonCodeAndConstants module [] [] g).1
       = Ok (jitfiles, constants) →
       (call_jitModuleToMobile module (getOptionsFromGlobal g) g).1
       = Ok mobilem →
       pure_call (call_save_mobile_module_to_bytes mobilem extra_files
                    jitfiles constants)).

End SaveInProcess.

(** Collaborators that are functions of their arguments, as calls. *)
Definition calls_of_functions `{Collaborators} : SaveCalls := {|
  call_jitModuleToPythonCodeAndConstants := λ module jitfiles constants g,
    let '(files, constants) :=
      jitModuleToPythonCodeAndConstants module (list_to_map jitfiles)
        constants in
    (Ok (map_to_list files, constants), g);
  call_jitModuleToMobile := λ module options g,
    (Ok (jitModuleToMobile module options), g);
  call_save_mobile_module_to_bytes :=
    λ mobilem extra_files jitfiles constants g,
      (Ok (save_mobile_module_to_bytes mobilem (list_to_map extra_files)
             (list_to_map jitfiles) constants), g)
|}.

(** Calls that are not pure, to run the save on: the lowering looks at
    whether the upgrader map is populated and marks the loader as
    registered. *)
Module ToyCalls.

Definition leaky : SaveCalls := {|
  call_jitModuleToPythonCodeAndConstants :=
    call_jitModuleToPythonCodeAndConstants (SaveCalls := calls_of_functions);
  call_jitModuleToMobile := λ module options g,
    (Ok (Toy.MkMobile (_ivalue module)
           (if Toy.upgraders_populated g then options else 0)),
     Toy.MkGlobals (Toy.model_version g) (Toy.upgraders_populated g) true
       (Toy.serializer_registered g));
  call_save_mobile_module_to_bytes :=
    call_save_mobile_module_to_bytes (SaveCalls := calls_of_functions)
|}.

Definition populated : World :=
  MkWorld _ (Toy.MkGlobals 7 true false false) None None None ∅ [].

End ToyCalls.

(** ** Extra files: what the merge computes *)

Section ExtraFiles.
Context `{Collab : Collaborators}.

Lemma insert_if_absent_union (kv : string * string) (m rest : ExtraFilesMap) :
  insert_if_absent kv m ∪ rest = m ∪ <[kv.1 := kv.2]> rest.
Proof.
  unfold insert_if_absent. apply map_eq. intros k.
  destruct (m !! kv.1) as [v|] eqn:Hm; rewrite !lookup_union.
  - destruct (decide (kv.1 = k)) as [<-|Hne].
    + rewrite Hm, lookup_insert_eq. by destruct (rest !! kv.1).
    + by rewrite lookup_insert_ne.
  - destruct (decide (kv.1 = k)) as [<-|Hne].
    + rewrite !lookup_insert_eq, Hm. by destruct (rest !! kv.1).
    + by rewrite !lookup_insert_ne.
Qed.

(** The merge is the left-biased union of the caller's map with the table:
    the caller's entries win, and of two table entries with one name the
    first wins. *)
Lemma foldl_insert_if_absent (l : list (string * string)) (m : ExtraFilesMap) :
  foldl (λ m kv, insert_if_absent kv m) m l = m ∪ list_to_map l.
Proof.
  revert m. induction l as [|kv l IH]; intros m; simpl.
  - by rewrite (right_id_L ∅ (∪)).
  - by rewrite IH, insert_if_absent_union.
Qed.

Lemma parseExtraFiles_union module (extra_files : ExtraFilesMap) :
  parseExtraFiles module extra_files
  = extra_files ∪ list_to_map (extra_files_table module).
Proof. apply foldl_insert_if_absent. Qed.

Lemma parseExtraFiles_keeps module (extra_files : ExtraFilesMap) k v :
  extra_files !! k = Some v →
  parseExtraFiles module extra_files !! k = Some v.
Proof.
  intros Hk. rewrite parseExtraFiles_union. by apply lookup_union_Some_l.
Qed.

Lemma parseExtraFiles_adds module (extra_files : ExtraFilesMap) k v :
  NoDup (extra_files_table module).*1 →
  (k, v) ∈ extra_files_table module →
  extra_files !! k = None →
  parseExtraFiles module extra_files !! k = Some v.
Proof.
  intros Hnd Hin Hk. rewrite parseExtraFiles_union, lookup_union_r by done.
  by apply elem_of_list_to_map_1.
Qed.

Lemma parseExtraFiles_frame module (extra_files : ExtraFilesMap) k :
  extra_files !! k = None →
  k ∉ (extra_files_table module).*1 →
  parseExtraFiles module extra_files !! k = None.
Proof.
  intros Hk Hnot. rewrite parseExtraFiles_union, lookup_union_r by done.
  by apply not_elem_of_list_to_map_1.
Qed.

Lemma parseExtraFiles_origin module (extra_files : ExtraFilesMap) k v :
  parseExtraFiles module extra_files !! k = Some v →
  extra_files !! k = Some v ∨
  (extra_files !! k = None ∧ (k, v) ∈ extra_files_table module).
Proof.
  rewrite parseExtraFiles_union, lookup_union_Some_raw.
  intros [?|[? Hl]]; [by left|right]. split; [done|].
  by apply elem_of_list_to_map_2.
Qed.

(** Into an empty map, a table that lists a map rebuilds that map. *)
Lemma parseExtraFiles_fresh module (F : ExtraFilesMap) :
  extra_files_table module ≡ₚ map_to_list F →
  parseExtraFiles module ∅ = F.
Proof.
  intros Hperm. rewrite parseExtraFiles_union, (left_id_L ∅ (∪)).
  rewrite <- (list_to_map_to_list F). apply list_to_map_proper; [|done].
  rewrite Hperm. apply NoDup_fst_map_to_list.
Qed.

(** What the load leaves in the caller's map: the merge when the module
    parsed, the map as it was when parsing threw. *)
Lemma load_extra_files data size (extra_files : ExtraFilesMap) device w :
  (parse_and_initialize_jit_module data size extra_files device w).1.2
  = if is_ok (parseModule FlatbufferLoader_new (GetMutableModule (sp_get data)))
    then parseExtraFiles (GetMutableModule (sp_get data)) extra_files
    else extra_files.
Proof.
  unfold parse_and_initialize_jit_module.
  destruct (parseModule _ _) as [[mobilem loader]|e]; simpl; [|done].
  destruct (extractJitSourceAndConstants _ _ _) as [files constants].
  by destruct (jitModuleFromSourceAndConstants _ _ _ _ _).
Qed.

End ExtraFiles.

(** ** Loading: the caller's map *)

Section LoadExtraFiles.
Context `{Collab : Collaborators}.

(** C3 (extra-files merge).  When the artifact behind [data] parses and the
    names in its extra-files table are distinct, the load leaves in the
    caller's map every entry that was there, unchanged; every table entry
    whose name was not a key, with its content; and nothing else. *)
Theorem load_merges_extra_files
    data size (extra_files : ExtraFilesMap) device w :
  is_ok (parseModule FlatbufferLoader_new (GetMutableModule (sp_get data)))
  = true →
  NoDup (extra_files_table (GetMutableModule (sp_get data))).*1 →
  let module := GetMutableModule (sp_get data) in
  let out :=
    (parse_and_initialize_jit_module data size extra_files device w).1.2 in
  (∀ k v, extra_files !! k = Some v → out !! k = Some v)
  ∧ (∀ k v, (k, v) ∈ extra_files_table module →
       extra_files !! k = None → out !! k = Some v)
  ∧ (∀ k, extra_files !! k = None →
       k ∉ (extra_files_table module).*1 → out !! k = None).
Proof.
  intros Hok Hnd module out. subst out.
  rewrite load_extra_files. fold module. fold module in Hok. rewrite Hok.
  split_and!.
  - intros k v. apply parseExtraFiles_keeps.
  - intros k v. by apply parseExtraFiles_adds.
  - intros k. apply parseExtraFiles_frame.
Qed.

(** C10 (source bundle kept apart).  Whatever the outcome, the caller's map
    is the merge of the extra-files table (or the map as it was, when
    parsing threw): a function of the table and the map alone, so each of
    its entries was there before or is a table entry.  On success the
    module was built by the Format Adapter from what the loader extracted
    into an empty map and an empty vector. *)
Theorem load_keeps_source_bundle_local
    data size (extra_files : ExtraFilesMap) device w :
  let module := GetMutableModule (sp_get data) in
  let outcome :=
    parse_and_initialize_jit_module data size extra_files device w in
  outcome.1.2
    = (if is_ok (parseModule FlatbufferLoader_new module)
       then parseExtraFiles module extra_files else extra_files)
  ∧ (∀ k v, outcome.1.2 !! k = Some v →
       extra_files !! k = Some v ∨ (k, v) ∈ extra_files_table module)
  ∧ match outcome.1.1 with
    | Ok m =>
      ∃ mobilem loader,
        parseModule FlatbufferLoader_new module = Ok (mobilem, loader)
        ∧ jitModuleFromSourceAndConstants (load_globals w)
            (mobile_ivalue mobilem)
            (extractJitSourceAndConstants loader ∅ []).1
            (extractJitSourceAndConstants loader ∅ []).2
            (bytecode_version module)
          = Ok (_ivalue m)
    | Throw _ => True
    end.
Proof.
  intros module outcome. subst outcome. split_and!.
  - apply load_extra_files.
  - intros k v. rewrite load_extra_files. fold module.
    destruct (is_ok _); [|by left].
    intros [?|[_ ?]]%parseExtraFiles_origin; [by left|by right].
  - unfold parse_and_initialize_jit_module, load_globals. fold module.
    destruct (parseModule _ _) as [[mobilem loader]|e]; simpl; [|done].
    destruct (extractJitSourceAndConstants _ _ _) as [files constants] eqn:Hx.
    assert (globals (if ENABLE_UPGRADERS
                     then with_globals
                            (populate_upgraders_graph_map (globals w)) w
                     else w)
            = (if ENABLE_UPGRADERS
               then populate_upgraders_graph_map (globals w)
               else globals w)) as -> by (destruct ENABLE_UPGRADERS; reflexivity).
    simpl.
    destruct (jitModuleFromSourceAndConstants _ _ _ _ _) as [o|e] eqn:Hj;
      simpl; [|done].
    exists mobilem, loader. split; [done|]. by rewrite Hx.
Qed.

End LoadExtraFiles.

(** The merge example of section 8 on the toy collaborators. *)
Lemma load_merges_extra_files_witness :
  is_ok (parseModule FlatbufferLoader_new
           (GetMutableModule (sp_get Toy.data_meta))) = true
  ∧ NoDup (extra_files_table (GetMutableModule (sp_get Toy.data_meta))).*1
  ∧ (parse_and_initialize_jit_module Toy.data_meta (length Toy.artifact_meta)
       Toy.other None Toy.loading).1.2 !! "meta.txt" = Some "v1"
  ∧ (parse_and_initialize_jit_module Toy.data_meta (length Toy.artifact_meta)
       Toy.other None Toy.loading).1.2 !! "other.txt" = Some "x".
Proof.
  assert (Hok : is_ok (parseModule FlatbufferLoader_new
                         (GetMutableModule (sp_get Toy.data_meta))) = true)
    by (vm_compute; reflexivity).
  assert (Hnd : NoDup (extra_files_table
                         (GetMutableModule (sp_get Toy.data_meta))).*1)
    by (vm_compute; apply NoDup_singleton).
  destruct (load_merges_extra_files Toy.data_meta (length Toy.artifact_meta)
              Toy.other None Toy.loading Hok Hnd) as (Hkeep & Hadd & _).
  split_and!; [done|done| |].
  - apply Hadd; [vm_compute; apply list_elem_of_here | vm_compute; reflexivity].
  - apply Hkeep. vm_compute; reflexivity.
Defined.

Lemma load_keeps_source_bundle_local_witness :
  (parse_and_initialize_jit_module Toy.data_meta 0 Toy.other None
     Toy.loading).1.2
  = parseExtraFiles (GetMutableModule (sp_get Toy.data_meta)) Toy.other
  ∧ (parse_and_initialize_jit_module Toy.data_meta 0 Toy.other None
       Toy.loading).1.2 !! Toy.source_key = None.
Proof.
  destruct (load_keeps_source_bundle_local Toy.data_meta 0 Toy.other None
              Toy.loading) as (Heq & _ & _).
  split; [exact Heq | vm_compute; reflexivity].
Defined.

(** ** Loading: outcome and ownership *)

Section Load.
Context `{Collab : Collaborators}.

Lemma globals_during_load (w : World) :
  globals (if ENABLE_UPGRADERS
           then with_globals (populate_upgraders_graph_map (globals w)) w
           else w)
  = load_globals w.
Proof. unfold load_globals. by destruct ENABLE_UPGRADERS. Qed.

Lemma use_count_during_load (w : World) :
  use_count (if ENABLE_UPGRADERS
             then with_globals (populate_upgraders_graph_map (globals w)) w
             else w)
  = use_count w.
Proof. by destruct ENABLE_UPGRADERS. Qed.

(** The successful path of the load. *)
Lemma load_succeeds
    data size (extra_files : ExtraFilesMap) device (w : World)
    mobilem loader o :
  parseModule FlatbufferLoader_new (GetMutableModule (sp_get data))
  = Ok (mobilem, loader) →
  jitModuleFromSourceAndConstants (load_globals w) (mobile_ivalue mobilem)
    (extractJitSourceAndConstants loader ∅ []).1
    (extractJitSourceAndConstants loader ∅ []).2
    (bytecode_version (GetMutableModule (sp_get data)))
  = Ok o →
  ∃ w',
    parse_and_initialize_jit_module data size extra_files device w
    = (Ok (MkModule o (Some data)),
       parseExtraFiles (GetMutableModule (sp_get data)) extra_files, w').
Proof.
  intros Hparse Himport. unfold parse_and_initialize_jit_module.
  rewrite Hparse.
  destruct (extractJitSourceAndConstants loader ∅ []) as [files constants].
  simpl in *. rewrite globals_during_load, Himport. simpl. by eexists.
Qed.

(** C1 (round trip).  Take the bytes [save_jit_module_to_bytes] makes of
    [module] and [F], and collaborators that are faithful on them.  Loading
    those bytes into an empty map returns a module that behaves like
    [module], and leaves exactly [F] in the map. *)
Theorem save_then_load_round_trip
    (module : Module Object) (F : ExtraFilesMap) (w_save w_load : World)
    (ctrl : nat) (device : option Device) :
  codec_faithful_at
    (jitModuleToMobile module (getOptionsFromGlobal (globals w_save))) F
    (jitModuleToPythonCodeAndConstants module ∅ []).1
    (jitModuleToPythonCodeAndConstants module ∅ []).2 →
  adapter_faithful_at (load_globals w_load) module
    (getOptionsFromGlobal (globals w_save))
    (bytecode_version
       (GetMutableModule (save_jit_module_to_bytes module F w_save))) →
  let bytes := save_jit_module_to_bytes module F w_save in
  ∃ m w',
    parse_and_initialize_jit_module (SharedPtr ctrl bytes) (length bytes) ∅
      device w_load
    = (Ok m, F, w')
    ∧ behaves_like (_ivalue m) (_ivalue module).
Proof.
  unfold save_jit_module_to_bytes, codec_faithful_at, adapter_faithful_at.
  destruct (jitModuleToPythonCodeAndConstants module ∅ []) as [J C]; simpl.
  intros (mobilem' & loader & Hparse & Hobj & Htable & Hsrc) Hadapter.
  destruct (Hadapter _ Hobj) as (o' & Himport & Hlike).
  unfold parse_and_initialize_jit_module; simpl.
  rewrite Hparse, Hsrc, globals_during_load, Himport; simpl.
  rewrite (parseExtraFiles_fresh _ F Htable).
  eexists _, _. split; [reflexivity|done].
Qed.


(** *** Holders of the backing buffer *)

Lemma use_count_sp_release p (w : World) n :
  use_count w !! sp_ctrl p = Some (S (S n)) →
  use_count (sp_release p w) !! sp_ctrl p = Some (S n).
Proof.
  intros H. unfold sp_release. rewrite H. simpl. apply lookup_insert_eq.
Qed.

Lemma use_count_sp_release_last p (w : World) :
  use_count w !! sp_ctrl p = Some 1 →
  use_count (sp_release p w) !! sp_ctrl p = None.
Proof.
  intros H. unfold sp_release. rewrite H. simpl. apply lookup_delete_eq.
Qed.

Lemma use_count_sp_copy p (w : World) n :
  use_count w !! sp_ctrl p = Some n →
  use_count (sp_copy p w) !! sp_ctrl p = Some (S n).
Proof.
  intros H. unfold sp_copy. simpl. by rewrite lookup_alter_eq, H.
Qed.

(** After [k] of [S n] holders have let go, [S n - k] are left. *)
Lemma use_count_after_releases p (w : World) n k :
  use_count w !! sp_ctrl p = Some (S n) →
  k ≤ n →
  use_count (Nat.iter k (sp_release p) w) !! sp_ctrl p = Some (S (n - k)).
Proof.
  intros Hw. induction k as [|k IH]; intros Hk; simpl.
  - by rewrite Nat.sub_0_r.
  - replace (S (n - k)) with (S (S (n - S k))) in IH by lia.
    apply use_count_sp_release, IH. lia.
Qed.

(** C4 (backing-buffer lifetime).  Let the buffer have [S n] holders when
    the load is called, the argument [data] being one of them.  After a
    successful load the returned module holds [data]; the argument's share
    has become the module's, so there are [S n] holders again.  The buffer
    stays alive however many of the [n] other holders let go, before or
    after the module is destroyed, as long as one holder is left; it is
    freed when the module is destroyed after all the others have let
    go. *)
Theorem module_keeps_buffer_alive
    data size (extra_files out : ExtraFilesMap) device (w w' : World)
    (m : Module Object) (n : nat) :
  use_count w !! sp_ctrl data = Some (S n) →
  parse_and_initialize_jit_module data size extra_files device w
  = (Ok m, out, w') →
  mem_to_delete_ m = Some data
  ∧ use_count w' !! sp_ctrl data = Some (S n)
  ∧ (∀ k, k ≤ n → alive data (Nat.iter k (sp_release data) w'))
  ∧ (∀ k, k < n →
       alive data (Nat.iter k (sp_release data) (destroy_module m w')))
  ∧ ¬ alive data (destroy_module m (Nat.iter n (sp_release data) w')).
Proof.
  intros Hcount Hload.
  assert (mem_to_delete_ m = Some data
          ∧ use_count w' !! sp_ctrl data = Some (S n)) as [Hm Hw'].
  { revert Hload. unfold parse_and_initialize_jit_module.
    destruct (parseModule _ _) as [[mobilem loader]|e]; [|done].
    destruct (extractJitSourceAndConstants _ _ _) as [files constants].
    destruct (jitModuleFromSourceAndConstants _ _ _ _ _) as [o|e]; [|done].
    simpl. intros [= <- _ <-]. split; [done|].
    apply use_count_sp_release, use_count_sp_copy.
    by rewrite use_count_during_load. }
  split_and!; [done|done| | |].
  - intros k Hk. unfold alive.
    by rewrite (use_count_after_releases _ _ n k).
  - intros k Hk. unfold alive, destroy_module. rewrite Hm.
    destruct n as [|n]; [lia|].
    rewrite (use_count_after_releases _ _ n k); [done| |lia].
    by apply use_count_sp_release.
  - unfold alive, destroy_module. rewrite Hm.
    rewrite use_count_sp_release_last; [by intros [? ?]|].
    rewrite (use_count_after_releases _ _ n n) by done.
    by rewrite Nat.sub_diag.
Qed.

End Load.

(** The scenario of section 8 on the toy collaborators: one module, one
    constant, the extra file README. *)
Lemma save_then_load_round_trip_witness :
  ∃ m w',
    parse_and_initialize_jit_module (SharedPtr 0 Toy.artifact0)
      (length Toy.artifact0) ∅ None Toy.loading
    = (Ok m, Toy.extra0, w')
    ∧ _ivalue m = _ivalue Toy.module0.
Proof.
  apply (save_then_load_round_trip (Collab := Toy.collaborators)
           Toy.module0 Toy.extra0 (Toy.world0 7) Toy.loading 0 None).
  - exists (Toy.MkMobile 1 7), (Some Toy.artifact0).
    split_and!; vm_compute; reflexivity.
  - intros o Ho. exists o. split; [reflexivity | exact Ho].
Defined.



(** The buffer is held by the caller and two others; after the load the
    module holds it, and it outlives the other two. *)
Lemma module_keeps_buffer_alive_witness :
  use_count Toy.loading_shared !! sp_ctrl Toy.data0 = Some 3
  ∧ ∃ m out w',
      parse_and_initialize_jit_module Toy.data0 (length Toy.artifact0) ∅ None
        Toy.loading_shared
      = (Ok m, out, w')
      ∧ mem_to_delete_ m = Some Toy.data0
      ∧ use_count w' !! sp_ctrl Toy.data0 = Some 3
      ∧ alive Toy.data0 (Nat.iter 2 (sp_release Toy.data0) w').
Proof.
  assert (Hcount : use_count Toy.loading_shared !! sp_ctrl Toy.data0 = Some 3)
    by (vm_compute; reflexivity).
  destruct (load_succeeds Toy.data0 (length Toy.artifact0) ∅ None
              Toy.loading_shared (Toy.MkMobile 1 7) (Some Toy.artifact0) 1)
    as [w' Hload]; [vm_compute; reflexivity | vm_compute; reflexivity |].
  destruct (module_keeps_buffer_alive Toy.data0 (length Toy.artifact0) ∅ _
              None Toy.loading_shared w' _ 2 Hcount Hload)
    as (Hm & Hw' & Hothers & _ & _).
  split; [exact Hcount|]. eexists _, _, w'.
  split_and!; [exact Hload | exact Hm | exact Hw' | exact (Hothers 2 (le_n 2))].
Defined.

(** ** Saving *)

Section Save.
Context `{Collab : Collaborators}.

(** C8 (write callback).  The writer is applied once, to the bytes
    [save_jit_module_to_bytes] produces and their length: the sink ends up
    as that one application leaves it, and a writer that records its calls
    has recorded exactly that call. *)
Theorem write_func_calls_writer_once
    {Sink : Type} (module : Module Object) (extra_files : ExtraFilesMap)
    (save_mobile_debug_info : bool)
    (writer_func : list byte → nat → Sink → nat * Sink)
    (w : World) (sink : Sink) :
  let bytes := save_jit_module_to_bytes module extra_files w in
  save_jit_module_to_write_func module extra_files save_mobile_debug_info
    writer_func w sink
  = (writer_func bytes (length bytes) sink).2
  ∧ save_jit_module_to_write_func module extra_files save_mobile_debug_info
      recording_writer w []
    = [(bytes, length bytes)].
Proof. split; reflexivity. Qed.

(** C9 (the debug-info flag is inert).  With the flag set or cleared the
    writer is called the same way and the sink ends up the same. *)
Theorem write_func_ignores_debug_flag
    {Sink : Type} (module : Module Object) (extra_files : ExtraFilesMap)
    (writer_func : list byte → nat → Sink → nat * Sink)
    (w : World) (sink : Sink) :
  save_jit_module_to_write_func module extra_files true writer_func w sink
  = save_jit_module_to_write_func module extra_files false writer_func w sink
  ∧ save_jit_module_to_write_func module extra_files true recording_writer w []
    = save_jit_module_to_write_func module extra_files false recording_writer
        w [].
Proof. split; reflexivity. Qed.

End Save.

(** C5 as stated fails: the same module and extra files, saved by two
    processes whose global compilation options differ, give different
    bytes. *)
Lemma save_reads_global_options :
  getOptionsFromGlobal (globals (Toy.world0 7))
  ≠ getOptionsFromGlobal (globals (Toy.world0 8))
  ∧ save_jit_module_to_bytes Toy.module0 Toy.extra0 (Toy.world0 7)
    ≠ save_jit_module_to_bytes Toy.module0 Toy.extra0 (Toy.world0 8).
Proof. split; vm_compute; discriminate. Qed.

(** ** Registration *)

Section Registration.
Context `{Collab : Collaborators}.

Lemma register_times_S n (w : World) :
  register_times (S n) w = (register_flatbuffer_all (register_times n w)).2.
Proof. reflexivity. Qed.

Lemma effects_register_flatbuffer_all (w : World) :
  effects (register_flatbuffer_all w).2 = effects w ++ one_registration.
Proof.
  unfold register_flatbuffer_all, one_registration; simpl.
  by rewrite <- !(assoc_L (++)).
Qed.

Lemma effects_register_times n (w : World) :
  effects (register_times n w)
  = effects w ++ concat (replicate n one_registration).
Proof.
  induction n as [|n IH].
  - simpl. by rewrite (right_id_L [] (++)).
  - rewrite register_times_S, effects_register_flatbuffer_all, IH.
    rewrite <- (assoc_L (++)). f_equal.
    change (concat (replicate (S n) one_registration))
      with (one_registration ++ concat (replicate n one_registration)).
    clear IH. induction n as [|n IH]; simpl.
    + reflexivity.
    + simpl in IH. by rewrite <- IH.
Qed.

(** C6, as the code has it.  Nothing guards [register_flatbuffer_all]:
    every call runs both registrations and stores both hooks again and
    returns true.  After one call or more the two hooks hold the same two
    functions; the calls made add up ([S n] calls leave [S n] copies of the
    effects of one); the collaborators' globals have been through the two
    registrations [S n] times; the flag is neither read nor written.  The
    flag itself is the result of the one call the static initializer
    makes, where [__APPLE__] is not defined. *)
Theorem registration_repeats_on_every_call (w : World) (n : nat) :
  (register_flatbuffer_all w).1 = true
  ∧ _save_jit_module_to (register_times (S n) w)
    = Some fn_save_jit_module_to_write_func
  ∧ _load_jit_module_from_flatbuffer_bytes (register_times (S n) w)
    = Some fn_parse_and_initialize_jit_module
  ∧ effects (register_times (S n) w)
    = effects w ++ concat (replicate (S n) one_registration)
  ∧ globals (register_times (S n) w)
    = Nat.iter (S n)
        (λ g, (register_flatbuffer_serializer
                 (register_flatbuffer_loader g).2).2)
        (globals w)
  ∧ kFlatbufferSerializerJitInitialized (register_times (S n) w)
    = kFlatbufferSerializerJitInitialized w
  ∧ kFlatbufferSerializerJitInitialized (static_initialization w)
    = (if __APPLE__ then kFlatbufferSerializerJitInitialized w
       else Some true)
  ∧ effects (static_initialization w)
    = effects w ++ (if __APPLE__ then [] else one_registration).
Proof.
  split_and!; try reflexivity.
  - apply effects_register_times.
  - induction n as [|n IH]; [reflexivity|].
    rewrite register_times_S. simpl in *. by rewrite IH.
  - induction n as [|n IH]; [reflexivity|].
    rewrite register_times_S. simpl in *. by rewrite IH.
  - unfold static_initialization. by destruct __APPLE__.
  - unfold static_initialization. destruct __APPLE__.
    + by rewrite (right_id_L [] (++)).
    + apply effects_register_flatbuffer_all.
Qed.

End Registration.

(** C6 as stated fails: a second call registers again.  Two calls leave
    the effects of one call twice over, and a process that differs from
    the one a single call leaves. *)
Lemma second_registration_runs_again :
  effects (register_times 2 (Toy.world0 7))
  = one_registration ++ one_registration
  ∧ effects (register_times 1 (Toy.world0 7)) = one_registration
  ∧ register_times 2 (Toy.world0 7) ≠ register_times 1 (Toy.world0 7).
Proof.
  split_and!; [reflexivity | reflexivity |].
  intros H. apply (f_equal effects) in H. discriminate H.
Qed.

(** ** The upgrader stage *)

Section Upgraders.
Import Upgrader.

(** The stage leaves behind a module it does not touch again. *)
Lemma apply_upgraders_settles registry current pm pm' :
  apply_upgraders registry current pm = Ok pm' →
  apply_upgraders registry current pm' = Ok pm'.
Proof.
  unfold apply_upgraders. destruct (decide (declared_version pm = current)).
  - intros [= <-]. by rewrite decide_True.
  - destruct (upgrade_stream _ _ _); [|done].
    intros [= <-]. by rewrite decide_True.
Qed.

(** C7 (upgrade of a current module).  On a module whose declared version
    is the current one the stage changes nothing, instruction stream
    included, and running it twice gives what running it once gives. *)
Theorem upgrade_of_current_module_is_noop
    (registry : list Entry) (current : N) (pm : PortableModule) :
  declared_version pm = current →
  apply_upgraders registry current pm = Ok pm
  ∧ (∀ pm', apply_upgraders registry current pm = Ok pm' →
       instructions pm' = instructions pm)
  ∧ apply_upgraders_twice registry current pm
    = apply_upgraders registry current pm.
Proof.
  intros Hv.
  assert (H1 : apply_upgraders registry current pm = Ok pm)
    by (unfold apply_upgraders; by rewrite decide_True).
  split_and!; [done| |].
  - rewrite H1. by intros pm' [= <-].
  - unfold apply_upgraders_twice. by rewrite H1.
Qed.

(** On a module of an older version the stage does rewrite: the call of
    [aten::div] becomes a call of its upgrader and the version marker
    becomes current. *)
Example upgrade_of_old_module :
  apply_upgraders registry0 4 old_module
  = Ok (MkPortable 4
          [ MkInstruction "aten::add" [0; 1]%N;
            MkInstruction "div_Tensor_0_3" [2; 3]%N ]).
Proof. reflexivity. Qed.

End Upgraders.

Lemma upgrade_of_current_module_is_noop_witness :
  Upgrader.declared_version Upgrader.current_module = 4%N
  ∧ Upgrader.apply_upgraders Upgrader.registry0 4 Upgrader.current_module
    = Ok Upgrader.current_module
  ∧ Upgrader.apply_upgraders_twice Upgrader.registry0 4
      Upgrader.current_module
    = Upgrader.apply_upgraders Upgrader.registry0 4 Upgrader.current_module.
Proof.
  destruct (upgrade_of_current_module_is_noop Upgrader.registry0 4
              Upgrader.current_module eq_refl) as (H1 & _ & H2).
  split_and!; [reflexivity | exact H1 | exact H2].
Defined.

(** ** More on loading: what a load does to the process *)

Section LoadProcess.
Context `{Collab : Collaborators}.

Lemma same_but_use_count_refl (w : World) : same_but_use_count w w.
Proof. by repeat split. Qed.

Lemma same_but_use_count_trans (w1 w2 w3 : World) :
  same_but_use_count w1 w2 → same_but_use_count w2 w3 →
  same_but_use_count w1 w3.
Proof.
  intros (?&?&?&?&?) (?&?&?&?&?). repeat split; by etrans.
Qed.

Lemma sp_release_same p (w : World) : same_but_use_count (sp_release p w) w.
Proof.
  unfold sp_release.
  destruct (use_count w !! sp_ctrl p) as [[|[|n]]|]; by repeat split.
Qed.

Lemma sp_copy_same p (w : World) : same_but_use_count (sp_copy p w) w.
Proof. by repeat split. Qed.

Lemma use_count_sp_release_with_globals p g (w : World) :
  use_count (sp_release p (with_globals g w)) = use_count (sp_release p w).
Proof.
  unfold sp_release. simpl.
  by destruct (use_count w !! sp_ctrl p) as [[|[|n]]|].
Qed.

Lemma use_count_sp_copy_with_globals p g (w : World) :
  use_count (sp_copy p (with_globals g w)) = use_count (sp_copy p w).
Proof. reflexivity. Qed.

Lemma use_count_sp_release_congr p (w1 w2 : World) :
  use_count w1 = use_count w2 →
  use_count (sp_release p w1) = use_count (sp_release p w2).
Proof.
  intros H. unfold sp_release. rewrite H.
  by destruct (use_count w2 !! sp_ctrl p) as [[|[|n]]|].
Qed.

Lemma use_count_sp_release_ne p c (w : World) :
  c ≠ sp_ctrl p → use_count (sp_release p w) !! c = use_count w !! c.
Proof.
  intros Hne. unfold sp_release.
  destruct (use_count w !! sp_ctrl p) as [[|[|n]]|]; simpl; try done.
  - by rewrite lookup_delete_ne.
  - by rewrite lookup_delete_ne.
  - by rewrite lookup_insert_ne.
Qed.

Lemma use_count_sp_copy_ne p c (w : World) :
  c ≠ sp_ctrl p → use_count (sp_copy p w) !! c = use_count w !! c.
Proof. intros Hne. unfold sp_copy. simpl. by rewrite lookup_alter_ne. Qed.

(** The process a load leaves behind, path by path. *)
Lemma load_world data size (extra_files : ExtraFilesMap) device (w : World) :
  let outcome :=
    parse_and_initialize_jit_module data size extra_files device w in
  same_but_use_count outcome.2 (with_globals (load_globals w) w)
  ∧ match outcome.1.1 with
    | Ok m =>
      mem_to_delete_ m = Some data
      ∧ use_count outcome.2 = use_count (sp_release data (sp_copy data w))
    | Throw _ => use_count outcome.2 = use_count (sp_release data w)
    end.
Proof.
  assert (Hsame : ∀ w1 w2 : World,
            same_but_use_count w1 w2 →
            same_but_use_count (sp_release data w1) w2).
  { intros w1 w2 H.
    eapply same_but_use_count_trans; [apply sp_release_same|done]. }
  unfold parse_and_initialize_jit_module, load_globals.
  destruct ENABLE_UPGRADERS;
    (destruct (parseModule _ _) as [[mobilem loader]|e]; simpl;
     [ destruct (extractJitSourceAndConstants _ _ _) as [files constants];
       destruct (jitModuleFromSourceAndConstants _ _ _ _ _) as [o|e]; simpl
     | ]);
    (split; [apply Hsame; by repeat split|]);
    try split; try done;
    by apply use_count_sp_release_congr.
Qed.

(** X1.  Whatever the outcome of a load, also when it throws, the process
    it leaves has the upgrader map populated (where upgraders are compiled
    in), and its two hooks, its flag and its registration effects are as
    they were. *)
Theorem load_populates_upgraders_whatever_happens
    data size (extra_files : ExtraFilesMap) device (w : World) :
  let w' :=
    (parse_and_initialize_jit_module data size extra_files device w).2 in
  globals w'
  = (if ENABLE_UPGRADERS then populate_upgraders_graph_map (globals w)
     else globals w)
  ∧ _save_jit_module_to w' = _save_jit_module_to w
  ∧ _load_jit_module_from_flatbuffer_bytes w'
    = _load_jit_module_from_flatbuffer_bytes w
  ∧ kFlatbufferSerializerJitInitialized w'
    = kFlatbufferSerializerJitInitialized w
  ∧ effects w' = effects w.
Proof.
  destruct (load_world data size extra_files device w)
    as ((Hg & Hs & Hl & Hk & He) & _).
  split_and!; [|done..]. rewrite Hg. reflexivity.
Qed.

(** X2.  A load is not all-or-nothing on the caller's map.  When the
    artifact parses and the source importer then throws, the load throws
    that error and returns no module, yet the map has already been merged
    with the artifact's extra files. *)
Theorem load_failure_keeps_merged_files
    data size (extra_files : ExtraFilesMap) device (w : World)
    mobilem loader e :
  parseModule FlatbufferLoader_new (GetMutableModule (sp_get data))
  = Ok (mobilem, loader) →
  jitModuleFromSourceAndConstants (load_globals w) (mobile_ivalue mobilem)
    (extractJitSourceAndConstants loader ∅ []).1
    (extractJitSourceAndConstants loader ∅ []).2
    (bytecode_version (GetMutableModule (sp_get data)))
  = Throw e →
  (parse_and_initialize_jit_module data size extra_files device w).1
  = (Throw e, parseExtraFiles (GetMutableModule (sp_get data)) extra_files).
Proof.
  intros Hparse Himport. unfold parse_and_initialize_jit_module.
  rewrite Hparse.
  destruct (extractJitSourceAndConstants loader ∅ []) as [files constants].
  simpl in *. by rewrite globals_during_load, Himport.
Qed.

(** X3.  A load touches the holders of its own buffer only: the use count
    of every other control block is as it was. *)
Theorem load_leaves_other_buffers_alone
    data size (extra_files : ExtraFilesMap) device (w : World) (c : nat) :
  c ≠ sp_ctrl data →
  use_count (parse_and_initialize_jit_module data size extra_files device w).2
    !! c
  = use_count w !! c.
Proof.
  intros Hne.
  destruct (load_world data size extra_files device w) as (_ & Hu).
  destruct ((parse_and_initialize_jit_module _ _ _ _ _).1.1).
  - destruct Hu as [_ ->].
    by rewrite use_count_sp_release_ne, use_count_sp_copy_ne.
  - rewrite Hu. by rewrite use_count_sp_release_ne.
Qed.

(** X4.  A load that throws keeps no hold on the buffer.  The share of
    the argument is given up: of [S n] holders [n] are left, and the buffer
    is freed if the argument was the only holder. *)
Theorem failed_load_drops_its_share
    data size (extra_files : ExtraFilesMap) device (w : World) e n :
  use_count w !! sp_ctrl data = Some (S n) →
  (parse_and_initialize_jit_module data size extra_files device w).1.1
  = Throw e →
  use_count (parse_and_initialize_jit_module data size extra_files device w).2
    !! sp_ctrl data
  = (if n is 0 then None else Some n).
Proof.
  intros Hcount Hthrow.
  destruct (load_world data size extra_files device w) as (_ & Hu).
  rewrite Hthrow in Hu. rewrite Hu.
  destruct n as [|n].
  - by apply use_count_sp_release_last.
  - by apply use_count_sp_release.
Qed.

(** X12.  Two modules loaded from one buffer share it.  With [S n]
    holders before the first load, and the caller copying its pointer for
    the second, both loads succeeding leave [S (S n)] holders: the [n]
    others and the two modules.  Once the others have let go, destroying
    either module leaves the buffer alive, and destroying both frees
    it. *)
Theorem two_loads_share_one_buffer
    data s1 s2 (ef1 ef2 out1 out2 : ExtraFilesMap) d1 d2
    (w w1 w2 : World) (m1 m2 : Module Object) (n : nat) :
  use_count w !! sp_ctrl data = Some (S n) →
  parse_and_initialize_jit_module data s1 ef1 d1 w = (Ok m1, out1, w1) →
  parse_and_initialize_jit_module data s2 ef2 d2 (sp_copy data w1)
  = (Ok m2, out2, w2) →
  use_count w2 !! sp_ctrl data = Some (S (S n))
  ∧ alive data (destroy_module m1 (Nat.iter n (sp_release data) w2))
  ∧ alive data (destroy_module m2 (Nat.iter n (sp_release data) w2))
  ∧ ¬ alive data
        (destroy_module m2
           (destroy_module m1 (Nat.iter n (sp_release data) w2))).
Proof.
  intros Hcount H1 H2.
  pose proof (load_world data s1 ef1 d1 w) as [_ Hu1].
  rewrite H1 in Hu1. simpl in Hu1. destruct Hu1 as [Hm1 Hu1].
  pose proof (load_world data s2 ef2 d2 (sp_copy data w1)) as [_ Hu2].
  rewrite H2 in Hu2. simpl in Hu2. destruct Hu2 as [Hm2 Hu2].
  assert (Hw1 : use_count w1 !! sp_ctrl data = Some (S n)).
  { rewrite Hu1. by apply use_count_sp_release, use_count_sp_copy. }
  assert (Hw2 : use_count w2 !! sp_ctrl data = Some (S (S n))).
  { rewrite Hu2.
    by apply use_count_sp_release, use_count_sp_copy, use_count_sp_copy. }
  assert (Hleft : use_count (Nat.iter n (sp_release data) w2) !! sp_ctrl data
                  = Some 2).
  { rewrite (use_count_after_releases data w2 (S n) n Hw2) by lia.
    do 2 f_equal. lia. }
  unfold alive, destroy_module. rewrite Hm1, Hm2.
  split_and!; [done| | |].
  - by rewrite (use_count_sp_release _ _ 0 Hleft).
  - by rewrite (use_count_sp_release _ _ 0 Hleft).
  - rewrite use_count_sp_release_last; [by intros [? ?]|].
    by apply use_count_sp_release.
Qed.

End LoadProcess.

Lemma load_failure_keeps_merged_files_witness :
  (parse_and_initialize_jit_module ToyFiles.data_no_source 0 Toy.other None
     Toy.loading).1.1 = Throw FormatError
  ∧ (parse_and_initialize_jit_module ToyFiles.data_no_source 0 Toy.other None
       Toy.loading).1.2 !! "meta.txt" = Some "v1".
Proof.
  assert (H := load_failure_keeps_merged_files (Collab := Toy.collaborators)
                 ToyFiles.data_no_source 0 Toy.other None Toy.loading
                 (Toy.MkMobile 1 7) (Some ToyFiles.artifact_no_source)
                 FormatError).
  rewrite H; [|vm_compute; reflexivity|vm_compute; reflexivity].
  split; [reflexivity | vm_compute; reflexivity].
Defined.

Lemma load_leaves_other_buffers_alone_witness :
  use_count
    (parse_and_initialize_jit_module Toy.data0 0 ∅ None
       (with_use_count {[0 := 1; 5 := 2]} (Toy.world0 7))).2 !! 5
  = Some 2.
Proof.
  rewrite (load_leaves_other_buffers_alone (Collab := Toy.collaborators)
             Toy.data0 0 ∅ None _ 5); [reflexivity | vm_compute; lia].
Defined.

Lemma failed_load_drops_its_share_witness :
  use_count
    (parse_and_initialize_jit_module Toy.data_cut 3 ∅ None Toy.loading).2
    !! sp_ctrl Toy.data_cut
  = None.
Proof.
  apply (failed_load_drops_its_share (Collab := Toy.collaborators)
           Toy.data_cut 3 ∅ None Toy.loading FormatError 0);
    vm_compute; reflexivity.
Defined.

(** ** Files and streams: the three entry points *)

Section FileEntryPoints.
Context `{Collab : Collaborators} `{Env : Environment}.

Lemma make_shared_fresh bytes (w : World) :
  use_count w !! sp_ctrl (make_shared bytes w).1 = None.
Proof. simpl. apply not_elem_of_dom, is_fresh. Qed.

Lemma sp_release_sole p (w : World) (u : gmap nat nat) :
  use_count w = <[sp_ctrl p := 1]> u →
  u !! sp_ctrl p = None →
  use_count (sp_release p w) = u.
Proof.
  intros Hw Hu. unfold sp_release. rewrite Hw, lookup_insert_eq. simpl.
  by apply delete_insert_id.
Qed.

Lemma sp_copy_release_sole p (w : World) (u : gmap nat nat) :
  use_count w = <[sp_ctrl p := 1]> u →
  use_count (sp_release p (sp_copy p w)) = <[sp_ctrl p := 1]> u.
Proof.
  intros Hw. unfold sp_release, sp_copy. simpl.
  rewrite Hw, alter_insert_eq, lookup_insert_eq. simpl.
  by rewrite insert_insert_eq.
Qed.

(** Loading a buffer nobody else holds: on success the module is its one
    holder and takes it along when destroyed; on a throw it is gone. *)
Lemma load_of_new_buffer
    bytes size (extra_files : ExtraFilesMap) device (w : World) :
  let data := (make_shared bytes w).1 in
  let outcome :=
    parse_and_initialize_jit_module data size extra_files device
      (make_shared bytes w).2 in
  match outcome.1.1 with
  | Ok m =>
    mem_to_delete_ m = Some data
    ∧ use_count w !! sp_ctrl data = None
    ∧ use_count outcome.2 = <[sp_ctrl data := 1]> (use_count w)
    ∧ use_count (destroy_module m outcome.2) = use_count w
  | Throw _ => use_count outcome.2 = use_count w
  end.
Proof.
  intros data outcome.
  pose proof (make_shared_fresh bytes w) as Hfresh. fold data in Hfresh.
  assert (Hnew : use_count (make_shared bytes w).2
                 = <[sp_ctrl data := 1]> (use_count w)) by reflexivity.
  destruct (load_world data size extra_files device (make_shared bytes w).2)
    as [_ Hu].
  fold outcome in Hu. destruct (outcome.1.1) as [m|e].
  - destruct Hu as [Hm Hu].
    rewrite (sp_copy_release_sole _ _ _ Hnew) in Hu.
    split_and!; [done..|].
    unfold destroy_module. rewrite Hm. by apply sp_release_sole.
  - rewrite Hu. by apply sp_release_sole.
Qed.

(** X5.  A load from a file does nothing before the file is read.  When
    the reader throws, the load throws the same error and the caller's map
    and the whole process are exactly as they were; not even the upgrader
    map has been populated.  Once the file has been read, the upgrader map
    is populated whatever the load then does; the hooks, the flag and the
    registration effects are never touched. *)
Theorem load_from_file_read_error
    filename (extra_files : ExtraFilesMap) device (fs : Files) (w : World) :
  let outcome := load_jit_module_from_file filename extra_files device fs w in
  match get_file_content filename fs with
  | Throw e => outcome = (Throw e, extra_files, w)
  | Ok _ =>
    globals outcome.2 = load_globals w
    ∧ _save_jit_module_to outcome.2 = _save_jit_module_to w
    ∧ _load_jit_module_from_flatbuffer_bytes outcome.2
      = _load_jit_module_from_flatbuffer_bytes w
    ∧ kFlatbufferSerializerJitInitialized outcome.2
      = kFlatbufferSerializerJitInitialized w
    ∧ effects outcome.2 = effects w
  end.
Proof.
  unfold load_jit_module_from_file.
  destruct (get_file_content filename fs) as [[bytes size]|e]; [|done].
  simpl.
  destruct (load_world (make_shared bytes w).1 size extra_files device
              (make_shared bytes w).2) as [(Hg & Hs & Hl & Hk & He) _].
  by split_and!.
Qed.

(** X6.  The buffer a load from a file reads lives exactly as long as the
    module it returns.  On success the module holds a buffer that did not
    exist before, it is the only holder, and destroying the module puts
    the use counts back as they were before the load.  When the load
    throws, whatever the reason, the use counts are as before: the buffer
    is not leaked. *)
Theorem file_load_buffer_lives_with_module
    filename (extra_files : ExtraFilesMap) device (fs : Files) (w : World) :
  let outcome := load_jit_module_from_file filename extra_files device fs w in
  match outcome.1.1 with
  | Ok m =>
    ∃ data,
      mem_to_delete_ m = Some data
      ∧ use_count w !! sp_ctrl data = None
      ∧ use_count outcome.2 = <[sp_ctrl data := 1]> (use_count w)
      ∧ use_count (destroy_module m outcome.2) = use_count w
  | Throw _ => use_count outcome.2 = use_count w
  end.
Proof.
  unfold load_jit_module_from_file.
  destruct (get_file_content filename fs) as [[bytes size]|e]; [|done].
  pose proof (load_of_new_buffer bytes size extra_files device w) as H.
  simpl in *.
  destruct (parse_and_initialize_jit_module _ _ _ _ _).1.1; [|done].
  eexists. exact H.
Qed.

(** X7.  The stream loader is the file loader on other bytes: when the
    stream yields what the file yields, both loads have the same outcome,
    whatever device each is given.  The stream is left as the reader left
    it, also when the load throws. *)
Theorem stream_load_agrees_with_file_load
    in_ in' r filename (fs : Files) (extra_files : ExtraFilesMap)
    (d1 d2 : option Device) (w : World) :
  get_stream_content in_ = (r, in') →
  get_file_content filename fs = r →
  load_jit_module_from_stream in_ extra_files d1 w
  = (load_jit_module_from_file filename extra_files d2 fs w, in').
Proof.
  intros Hs Hf. unfold load_jit_module_from_stream, load_jit_module_from_file.
  rewrite Hs, Hf. by destruct r as [[bytes size]|e].
Qed.

(** X8.  The same for a load from a stream: the buffer read from the
    stream lives exactly as long as the returned module, and is freed when
    the load throws. *)
Theorem stream_load_buffer_lives_with_module
    in_ (extra_files : ExtraFilesMap) device (w : World) :
  let outcome := load_jit_module_from_stream in_ extra_files device w in
  match outcome.1.1.1 with
  | Ok m =>
    ∃ data,
      mem_to_delete_ m = Some data
      ∧ use_count w !! sp_ctrl data = None
      ∧ use_count outcome.1.2 = <[sp_ctrl data := 1]> (use_count w)
      ∧ use_count (destroy_module m outcome.1.2) = use_count w
  | Throw _ => use_count outcome.1.2 = use_count w
  end.
Proof.
  unfold load_jit_module_from_stream.
  destruct (get_stream_content in_) as [[[bytes size]|e] in']; [|done].
  pose proof (load_of_new_buffer bytes size extra_files device w) as H.
  simpl in *.
  destruct (parse_and_initialize_jit_module _ _ _ _ _).1.1; [|done].
  eexists. exact H.
Qed.

Lemma save_jit_module_lookup
    (module : Module Object) filename (extra_files : ExtraFilesMap)
    (w : World) (fs : Files) :
  can_open filename fs = true →
  save_jit_module module filename extra_files w fs !! filename
  = Some (save_jit_module_to_bytes module extra_files w).
Proof.
  intros Hopen. unfold save_jit_module, fstream_open, fstream_write.
  rewrite Hopen. by rewrite lookup_alter_eq, lookup_insert_eq.
Qed.

(** X9.  Saving to a file replaces the file or does nothing, and says
    nothing either way.  If the path can be opened, the file ends up
    holding exactly the bytes of [save_jit_module_to_bytes], whatever it
    held before; if not, the call returns as usual and the disk is
    unchanged.  No other file is touched. *)
Theorem save_jit_module_replaces_file_or_does_nothing
    (module : Module Object) filename (extra_files : ExtraFilesMap)
    (w : World) (fs : Files) :
  let fs' := save_jit_module module filename extra_files w fs in
  (if can_open filename fs
   then fs' !! filename = Some (save_jit_module_to_bytes module extra_files w)
   else fs' = fs)
  ∧ ∀ other, other ≠ filename → fs' !! other = fs !! other.
Proof.
  split.
  - destruct (can_open filename fs) eqn:Hopen.
    + by apply save_jit_module_lookup.
    + unfold save_jit_module, fstream_open. by rewrite Hopen.
  - intros other Hne. unfold save_jit_module, fstream_open, fstream_write.
    destruct (can_open filename fs); [|done].
    by rewrite lookup_alter_ne, lookup_insert_ne.
Qed.

(** X10.  Round trip through a file.  Save a module and extra files [F]
    to a path that can be opened; let the reader give back what the file
    holds, and let the collaborators be faithful on the bytes.  Loading
    from that path into an empty map returns a module that behaves like
    the one saved and leaves exactly [F] in the map. *)
Theorem save_to_file_then_load_round_trip
    (module : Module Object) (F : ExtraFilesMap) (w_save w_load : World)
    filename (fs : Files) (device : option Device) :
  can_open filename fs = true →
  reads_file_at filename (save_jit_module module filename F w_save fs) →
  codec_faithful_at
    (jitModuleToMobile module (getOptionsFromGlobal (globals w_save))) F
    (jitModuleToPythonCodeAndConstants module ∅ []).1
    (jitModuleToPythonCodeAndConstants module ∅ []).2 →
  adapter_faithful_at (load_globals w_load) module
    (getOptionsFromGlobal (globals w_save))
    (bytecode_version
       (GetMutableModule (save_jit_module_to_bytes module F w_save))) →
  ∃ m w',
    load_jit_module_from_file filename ∅ device
      (save_jit_module module filename F w_save fs) w_load
    = (Ok m, F, w')
    ∧ behaves_like (_ivalue m) (_ivalue module).
Proof.
  intros Hopen (content & size & Hlookup & Hread).
  rewrite save_jit_module_lookup in Hlookup by done.
  injection Hlookup as <-.
  unfold load_jit_module_from_file. rewrite Hread. simpl.
  unfold save_jit_module_to_bytes, codec_faithful_at, adapter_faithful_at.
  destruct (jitModuleToPythonCodeAndConstants module ∅ []) as [J C]; simpl.
  intros (mobilem' & loader & Hparse & Hobj & Htable & Hsrc) Hadapter.
  destruct (Hadapter _ Hobj) as (o' & Himport & Hlike).
  edestruct (load_succeeds
               (SharedPtr (fresh (dom (use_count w_load)))
                  (save_mobile_module_to_bytes
                     (jitModuleToMobile module
                        (getOptionsFromGlobal (globals w_save))) F J C))
               size ∅ device
               (with_use_count
                  (<[fresh (dom (use_count w_load)) := 1]> (use_count w_load))
                  w_load)
               mobilem' loader o') as [w' Hload].
  - exact Hparse.
  - rewrite Hsrc. exact Himport.
  - simpl in Hload. rewrite Hload.
    rewrite (parseExtraFiles_fresh _ F Htable). by eexists _, _.
Qed.

End FileEntryPoints.

(** ** Registration at library load *)

Section StaticInitialization.
Context `{Collab : Collaborators}.

(** X11.  Loading the library installs the two hooks and runs the two
    registrations, except where [__APPLE__] is defined: there it changes
    nothing, and the hooks stay as they were until [register_flatbuffer_all]
    is called by hand.  After such a call the hooks are set on every
    platform, and the flag is as the initializer left it.  Use counts are
    never touched. *)
Theorem static_initialization_installs_hooks_unless_apple (w : World) :
  (if __APPLE__ then static_initialization w = w
   else
     _save_jit_module_to (static_initialization w)
     = Some fn_save_jit_module_to_write_func
     ∧ _load_jit_module_from_flatbuffer_bytes (static_initialization w)
       = Some fn_parse_and_initialize_jit_module
     ∧ globals (static_initialization w)
       = (register_flatbuffer_serializer
            (register_flatbuffer_loader (globals w)).2).2)
  ∧ _save_jit_module_to (register_flatbuffer_all (static_initialization w)).2
    = Some fn_save_jit_module_to_write_func
  ∧ _load_jit_module_from_flatbuffer_bytes
      (register_flatbuffer_all (static_initialization w)).2
    = Some fn_parse_and_initialize_jit_module
  ∧ kFlatbufferSerializerJitInitialized
      (register_flatbuffer_all (static_initialization w)).2
    = kFlatbufferSerializerJitInitialized (static_initialization w)
  ∧ use_count (register_flatbuffer_all (static_initialization w)).2
    = use_count w.
Proof.
  unfold static_initialization.
  destruct __APPLE__; by split_and!.
Qed.

End StaticInitialization.

Lemma load_from_file_read_error_witness :
  get_file_content "model.ptl" ToyFiles.disk0 = Throw IOError
  ∧ load_jit_module_from_file "model.ptl" Toy.other None ToyFiles.disk0
      Toy.loading
    = (Throw IOError, Toy.other, Toy.loading).
Proof.
  split; [vm_compute; reflexivity|].
  exact (load_from_file_read_error (Collab := Toy.collaborators)
           (Env := ToyFiles.environment)
           "model.ptl" Toy.other None ToyFiles.disk0 Toy.loading).
Defined.

Lemma stream_load_agrees_with_file_load_witness :
  load_jit_module_from_stream (String.list_byte_of_string "abc") Toy.other
    (Some CPU) Toy.loading
  = (load_jit_module_from_file "notes.txt" Toy.other None ToyFiles.disk0
       Toy.loading, []).
Proof.
  apply (stream_load_agrees_with_file_load (Collab := Toy.collaborators)
           (Env := ToyFiles.environment)
           (String.list_byte_of_string "abc") []
           (Ok (String.list_byte_of_string "abc", 3)));
    vm_compute; reflexivity.
Defined.

Lemma save_jit_module_replaces_file_or_does_nothing_witness :
  save_jit_module Toy.module0 "notes.txt" Toy.extra0 (Toy.world0 7)
    ToyFiles.disk0 !! "notes.txt"
  = Some Toy.artifact0
  ∧ save_jit_module Toy.module0 "" Toy.extra0 (Toy.world0 7) ToyFiles.disk0
    = ToyFiles.disk0.
Proof.
  split.
  - exact (proj1 (save_jit_module_replaces_file_or_does_nothing
                    (Collab := Toy.collaborators)
                    (Env := ToyFiles.environment)
                    Toy.module0 "notes.txt" Toy.extra0 (Toy.world0 7)
                    ToyFiles.disk0)).
  - exact (proj1 (save_jit_module_replaces_file_or_does_nothing
                    (Collab := Toy.collaborators)
                    (Env := ToyFiles.environment)
                    Toy.module0 "" Toy.extra0 (Toy.world0 7)
                    ToyFiles.disk0)).
Defined.

Lemma save_to_file_then_load_round_trip_witness :
  ∃ m w',
    load_jit_module_from_file "model.ptl" ∅ None
      (save_jit_module Toy.module0 "model.ptl" Toy.extra0 (Toy.world0 7)
         ToyFiles.disk0)
      Toy.loading
    = (Ok m, Toy.extra0, w')
    ∧ _ivalue m = _ivalue Toy.module0.
Proof.
  apply (save_to_file_then_load_round_trip (Collab := Toy.collaborators)
           (Env := ToyFiles.environment)
           Toy.module0 Toy.extra0 (Toy.world0 7) Toy.loading "model.ptl"
           ToyFiles.disk0 None).
  - vm_compute; reflexivity.
  - exists Toy.artifact0, (length Toy.artifact0).
    split; vm_compute; reflexivity.
  - exists (Toy.MkMobile 1 7), (Some Toy.artifact0).
    split_and!; vm_compute; reflexivity.
  - intros o Ho. exists o. split; [reflexivity | exact Ho].
Defined.

Lemma two_loads_share_one_buffer_witness :
  ∃ m1 out1 w1 m2 out2 w2,
    parse_and_initialize_jit_module Toy.data0 0 ∅ None Toy.loading
    = (Ok m1, out1, w1)
    ∧ parse_and_initialize_jit_module Toy.data0 0 ∅ None
        (sp_copy Toy.data0 w1)
      = (Ok m2, out2, w2)
    ∧ use_count w2 !! sp_ctrl Toy.data0 = Some 2
    ∧ ¬ alive Toy.data0 (destroy_module m2 (destroy_module m1 w2)).
Proof.
  destruct (load_succeeds (Collab := Toy.collaborators) Toy.data0 0 ∅ None
              Toy.loading (Toy.MkMobile 1 7) (Some Toy.artifact0) 1)
    as [w1 H1]; [vm_compute; reflexivity..|].
  destruct (load_succeeds (Collab := Toy.collaborators) Toy.data0 0 ∅ None
              (sp_copy Toy.data0 w1) (Toy.MkMobile 1 7)
              (Some Toy.artifact0) 1)
    as [w2 H2]; [vm_compute; reflexivity..|].
  destruct (two_loads_share_one_buffer (Collab := Toy.collaborators)
              Toy.data0 0 0 ∅ ∅ _ _ None None Toy.loading w1 w2 _ _ 0
              eq_refl H1 H2) as (Hc & _ & _ & Hfree).
  eexists _, _, w1, _, _, w2.
  split_and!; [exact H1 | exact H2 | exact Hc | exact Hfree].
Defined.

(** ** Saving: what purity takes *)

Section SavePurity.
Context `{Collab : Collaborators} `{Calls : !SaveCalls}.

Lemma with_globals_same (w : World) : with_globals (globals w) w = w.
Proof. by destruct w. Qed.

Lemma call_pure {A} (m : Globals → result A * Globals) (w : World) :
  pure_call m → call m w = ((m (globals w)).1, w).
Proof.
  intros H. unfold call. destruct (H (globals w) (globals w)) as [_ Hg].
  destruct (m (globals w)) as [r g]. simpl in *. subst g.
  by rewrite with_globals_same.
Qed.

(** C5, as the code has it.  Let the three collaborators the save calls be
    pure at the arguments they are given: their results do not depend on
    the process state and they leave it as it is.  Then the save is a
    function of its two arguments and of the global compilation options it
    reads through [getOptionsFromGlobal]: run in two processes that agree
    on the options, whatever else differs between them, it has the same
    outcome, byte for byte; and it leaves the process as it was. *)
Theorem save_is_pure_up_to_global_options
    (module : Module Object) (extra_files : unordered_map) (w1 w2 : World) :
  calls_pure_at module extra_files (globals w1) →
  getOptionsFromGlobal (globals w1) = getOptionsFromGlobal (globals w2) →
  (save_jit_module_to_bytes_in_process module extra_files w1).1
  = (save_jit_module_to_bytes_in_process module extra_files w2).1
  ∧ (save_jit_module_to_bytes_in_process module extra_files w1).2 = w1.
Proof.
  intros (Hexport & Hlower & Hserialize) Hopt.
  unfold save_jit_module_to_bytes_in_process, proc_bind, read_globals.
  rewrite !(call_pure _ _ Hexport).
  destruct (Hexport (globals w2) (globals w1)) as [-> _].
  destruct (call_jitModuleToPythonCodeAndConstants module [] [] (globals w1)).1
    as [[jitfiles constants]|e] eqn:Hx; [|done].
  rewrite <- Hopt, !(call_pure _ _ Hlower).
  destruct (Hlower (globals w2) (globals w1)) as [-> _].
  destruct (call_jitModuleToMobile module _ (globals w1)).1
    as [mobilem|e] eqn:Hm; [|done].
  specialize (Hserialize jitfiles constants mobilem eq_refl eq_refl).
  rewrite !(call_pure _ _ Hserialize). simpl.
  by destruct (Hserialize (globals w1) (globals w2)) as [-> _].
Qed.

End SavePurity.

Section SaveOfFunctions.
Context `{Collab : Collaborators}.

(** Collaborators that are functions of their arguments are pure calls. *)
Lemma calls_of_functions_pure (module : Module Object)
    (extra_files : unordered_map) (g : Globals) :
  calls_pure_at (Calls := calls_of_functions) module extra_files g.
Proof.
  split_and!.
  - intros g1 g2. simpl.
    by destruct (jitModuleToPythonCodeAndConstants module _ _).
  - by intros g1 g2.
  - by intros jitfiles constants mobilem _ _ g1 g2.
Qed.

(** With such collaborators the save in the process is the save above, on
    the map the sequence lists. *)
Lemma save_in_process_of_functions (module : Module Object)
    (extra_files : unordered_map) (w : World) :
  save_jit_module_to_bytes_in_process (Calls := calls_of_functions)
    module extra_files w
  = (Ok (save_jit_module_to_bytes module (list_to_map extra_files) w), w).
Proof.
  unfold save_jit_module_to_bytes_in_process, save_jit_module_to_bytes,
    proc_bind, read_globals, call. simpl.
  destruct (jitModuleToPythonCodeAndConstants module ∅ [])
    as [files constants]. simpl.
  by rewrite !with_globals_same, list_to_map_to_list.
Qed.

End SaveOfFunctions.

(** Two toy processes with the same options and different registrations
    and holders: the same bytes, and the first process is as it was. *)
Lemma save_is_pure_up_to_global_options_witness :
  (save_jit_module_to_bytes_in_process (Calls := calls_of_functions)
     Toy.module0 [("README", "hi")] (Toy.world0 7)).1
  = (save_jit_module_to_bytes_in_process (Calls := calls_of_functions)
       Toy.module0 [("README", "hi")]
       (register_flatbuffer_all Toy.loading_shared).2).1
  ∧ (save_jit_module_to_bytes_in_process (Calls := calls_of_functions)
       Toy.module0 [("README", "hi")] (Toy.world0 7)).2
    = Toy.world0 7.
Proof.
  apply (save_is_pure_up_to_global_options (Collab := Toy.collaborators)
           (Calls := calls_of_functions)).
  - apply calls_of_functions_pure.
  - reflexivity.
Defined.

(** The options do matter, pure collaborators or not: the toy processes
    of the counterexample save different bytes in the process as well. *)
Example save_in_process_reads_global_options :
  (save_jit_module_to_bytes_in_process (Calls := calls_of_functions)
     Toy.module0 [("README", "hi")] (Toy.world0 7)).1
  ≠ (save_jit_module_to_bytes_in_process (Calls := calls_of_functions)
       Toy.module0 [("README", "hi")] (Toy.world0 8)).1.
Proof.
  rewrite !(save_in_process_of_functions (Collab := Toy.collaborators)).
  vm_compute. discriminate.
Qed.

(** Without pure collaborators neither half holds.  With a lowering that
    looks at the upgrader map and marks the loader registered, two
    processes with the same options save different bytes, and the process
    is not left as it was. *)
Example save_with_leaky_calls :
  getOptionsFromGlobal (globals (Toy.world0 7))
  = getOptionsFromGlobal (globals ToyCalls.populated)
  ∧ (save_jit_module_to_bytes_in_process (Calls := ToyCalls.leaky)
       Toy.module0 [("README", "hi")] (Toy.world0 7)).1
    ≠ (save_jit_module_to_bytes_in_process (Calls := ToyCalls.leaky)
         Toy.module0 [("README", "hi")] ToyCalls.populated).1
  ∧ (save_jit_module_to_bytes_in_process (Calls := ToyCalls.leaky)
       Toy.module0 [("README", "hi")] (Toy.world0 7)).2
    ≠ Toy.world0 7.
Proof.
  split_and!.
  - reflexivity.
  - vm_compute. discriminate.
  - intros H. apply (f_equal globals) in H. vm_compute in H. discriminate H.
Qed.
